(** * A shallow embedding of [yt-summarize.py]

    The script is a linear pipeline
      [extract_video_id] -> [fetch_video_title] -> [fetch_transcript]
      -> [summarize] -> [send_to_obsidian]
    driven by [main].

    Python strings are modelled as Rocq [string]s, i.e. sequences of 8-bit
    characters (the Latin-1 part of Unicode); every character class the
    script uses lies inside that range. Everything the script does to the
    outside world (its two output streams, the network, the environment)
    is made explicit: a run threads a trace of observable events, and ends
    in a value, an uncaught exception, or [sys.exit]. *)

From Stdlib Require Import String Ascii List ZArith Lia Bool.
Import ListNotations.

Open Scope string_scope.

(** ** Characters and strings *)

Definition char_of (n : nat) : ascii := ascii_of_nat n.

(** ["\n"] *)
Definition nl : string := String (char_of 10) EmptyString.

Definition in_range (lo hi : nat) (c : ascii) : bool :=
  (lo <=? nat_of_ascii c)%nat && (nat_of_ascii c <=? hi)%nat.

(** The regex class [[a-zA-Z0-9_-]]. *)
Definition is_id_char (c : ascii) : bool :=
  in_range 97 122 c || in_range 65 90 c || in_range 48 57 c
  || Ascii.eqb c "_"%char || Ascii.eqb c "-"%char.

Fixpoint all_id_chars (s : string) : bool :=
  match s with
  | EmptyString => true
  | String c s' => is_id_char c && all_id_chars s'
  end.

(** A well-formed video identifier: 11 characters of [[a-zA-Z0-9_-]]. *)
Definition valid_id (s : string) : bool :=
  (String.length s =? 11)%nat && all_id_chars s.

Fixpoint starts_with (p s : string) : bool :=
  match p, s with
  | EmptyString, _ => true
  | String c p', String d s' => Ascii.eqb c d && starts_with p' s'
  | String _ _, EmptyString => false
  end.

Fixpoint sdrop (n : nat) (s : string) : string :=
  match n, s with
  | O, _ => s
  | S n', String _ s' => sdrop n' s'
  | S _, EmptyString => EmptyString
  end.

(** ** Python's [re], restricted to the shapes the script uses

    A pattern is a matcher anchored at the current position, returning the
    text of capture group 1. [re.search] tries every start position from
    left to right (including the end of the string) and returns the first
    success. *)

(** [([a-zA-Z0-9_-]{11})]: exactly 11 class characters, anything may follow. *)
Fixpoint take_id (n : nat) (s : string) : option string :=
  match n with
  | O => Some EmptyString
  | S n' =>
      match s with
      | String c s' =>
          if is_id_char c then option_map (String c) (take_id n' s') else None
      | EmptyString => None
      end
  end.

(** [(?:<literal>)([a-zA-Z0-9_-]{11})] anchored at the current position. *)
Definition lit_then_id (lit : string) (s : string) : option string :=
  if starts_with lit s then take_id 11 (sdrop (String.length lit) s) else None.

(** [v=([a-zA-Z0-9_-]{11})] anchored at the current position. *)
Definition v_then_id (s : string) : option string := lit_then_id "v=" s.

(** [.*v=([a-zA-Z0-9_-]{11})]: [.] is any character but a line feed; the
    star is greedy, so the backtracking engine first tries to consume one
    more character and only then the continuation at the current place. *)
Fixpoint dotstar_v_id (s : string) : option string :=
  match s with
  | EmptyString => v_then_id s
  | String c s' =>
      if Ascii.eqb c (char_of 10) then v_then_id s
      else match dotstar_v_id s' with
           | Some g => Some g
           | None => v_then_id s
           end
  end.

(** [(?:youtube\.com/watch\?.*v=)([a-zA-Z0-9_-]{11})] anchored. *)
Definition watch_then_id (s : string) : option string :=
  if starts_with "youtube.com/watch?" s
  then dotstar_v_id (sdrop (String.length "youtube.com/watch?") s)
  else None.

(** [re.search(pattern, s)] and [match.group(1)]. *)
Fixpoint re_search (m : string -> option string) (s : string) : option string :=
  match m s with
  | Some g => Some g
  | None =>
      match s with
      | EmptyString => None
      | String _ s' => re_search m s'
      end
  end.

(** [re.fullmatch(r"[a-zA-Z0-9_-]{11}", s)]. *)
Definition fullmatch_id (s : string) : bool :=
  match take_id 11 s with
  | Some _ => String.eqb (sdrop 11 s) EmptyString
  | None => false
  end.

(** The [patterns] list of [extract_video_id], in order. *)
Definition patterns : list (string -> option string) :=
  [ lit_then_id "youtu.be/";
    watch_then_id;
    lit_then_id "youtube.com/embed/";
    lit_then_id "youtube.com/v/";
    lit_then_id "youtube.com/shorts/" ].

(** ** Data exchanged with the outside world *)

Set Warnings "-register-all".

(** A value produced by [json.loads]. *)
Inductive json :=
  | JNull
  | JBool (b : bool)
  | JNum (z : Z)
  | JStr (s : string)
  | JArr (l : list json)
  | JObj (kvs : list (string * json)).

(** What the network delivers for one request: a transport failure, or a
    response with its final status code and body. *)
Inductive http_reply :=
  | NetError (msg : string)
  | Response (status : Z) (body : string).

(** A caption track of [youtube_transcript_api]. *)
Record track := Track {
  language_code : string;
  is_generated : bool;
  track_url : string }.

(** A [TranscriptList]: its two dictionaries keyed by language code, given
    by their values in insertion order (one track per language code). *)
Record transcript_list := TranscriptList {
  manually_created : list track;
  generated : list track }.

(** A [FetchedTranscriptSnippet]; the timing fields are floats in the
    library and are kept here as opaque numbers. *)
Record snippet := Snippet {
  text : string;
  start : Z;
  duration : Z }.

(** A block of [message.content] in an Anthropic response. *)
Inductive content_block :=
  | TextBlock (text : string)
  | OtherBlock (kind : string).

(** ** Effects: events, outcomes, and the script monad *)

Record exn := Exn { exn_type : string; exn_msg : string }.

Inductive event :=
  | Stdout (s : string)
  | Stderr (s : string)
  | HttpGet (url : string)
  | HttpPut (url : string) (headers : list (string * string)) (body : string)
  | ListTranscripts (video_id : string)
  | FetchTrack (t : track)
  | Completion (model : string) (max_tokens : Z) (prompt : string).

Inductive outcome (A : Type) :=
  | Ok (a : A)
  | Raise (e : exn)        (* an exception derived from [Exception] *)
  | Exit (code : Z).       (* [sys.exit(code)], i.e. [SystemExit] *)
Arguments Ok {A} a.
Arguments Raise {A} e.
Arguments Exit {A} code.

Definition M (A : Type) := list event -> outcome A * list event.

Definition ret {A} (a : A) : M A := fun tr => (Ok a, tr).

Definition bind {A B} (m : M A) (f : A -> M B) : M B :=
  fun tr =>
    match m tr with
    | (Ok a, tr') => f a tr'
    | (Raise e, tr') => (Raise e, tr')
    | (Exit c, tr') => (Exit c, tr')
    end.

Notation "x <- m ;; k" := (bind m (fun x => k))
  (at level 61, m at next level, right associativity).
Notation "m ;;; k" := (bind m (fun _ => k))
  (at level 61, right associativity).

Definition raise {A} (e : exn) : M A := fun tr => (Raise e, tr).
Definition sys_exit {A} (code : Z) : M A := fun tr => (Exit code, tr).
Definition emit (e : event) : M unit := fun tr => (Ok tt, (tr ++ [e])%list).

(** [print(s)] and [print(s, file=sys.stderr)]. *)
Definition print_out (s : string) : M unit := emit (Stdout (s ++ nl)).
Definition print_err (s : string) : M unit := emit (Stderr (s ++ nl)).

(** [try: m except Exception [as e]: h(e)]. [SystemExit] is not an
    [Exception] and passes through. *)
Definition try_except {A} (m : M A) (h : exn -> M A) : M A :=
  fun tr =>
    match m tr with
    | (Raise e, tr') => h e tr'
    | r => r
    end.

Definition lift_opt {A} (e : exn) (o : option A) : M A :=
  match o with Some a => ret a | None => raise e end.

(** ** [extract_video_id] (lines 16-33) *)

Fixpoint first_search (ps : list (string -> option string)) (url : string)
  : option string :=
  match ps with
  | [] => None
  | p :: ps' =>
      match re_search p url with
      | Some g => Some g
      | None => first_search ps' url
      end
  end.

Definition extract_video_id (url : string) : M string :=
  match first_search patterns url with
  | Some g => ret g
  | None =>
      if fullmatch_id url then ret url
      else print_err ("Error: Could not extract video ID from: " ++ url) ;;;
           sys_exit 1%Z
  end.

(** ** The environment of a run

    [world] is what the outside gives back to the script: the process
    environment and the answers of the four remote services. [pylib] holds
    the library functions the script calls whose code is not part of this
    repository. *)

Record world := World {
  environ : string -> option string;                          (* os.environ *)
  http_get : string -> http_reply;                            (* GET url *)
  http_put : string -> list (string * string) -> string -> http_reply;
  yt_list : string -> option transcript_list;                 (* ytt.list *)
  yt_fetch : track -> option (list snippet);                  (* Transcript.fetch *)
  claude : string -> Z -> string -> option (list content_block) }.

Record pylib := PyLib {
  json_loads : string -> option json;      (* None: JSONDecodeError *)
  py_int : string -> option Z;             (* int(s); None: ValueError *)
  str_of_int : Z -> string;                (* str(n) *)
  quote : string -> string -> string;      (* urllib.request.quote(s, safe) *)
  py_str : json -> string;                 (* str(v) of a non-string value *)
  yt_translate : track -> string -> option track  (* Transcript.translate *)
}.

(** [dict.get] / [d[k]] on a decoded JSON object: a later duplicate key
    overrides an earlier one. *)
Definition dict_get (k : string) (kvs : list (string * json)) : option json :=
  fold_left (fun acc kv => if String.eqb (fst kv) k then Some (snd kv) else acc)
            kvs None.

(** [data["title"]] on a value returned by [json.loads]. *)
Definition subscript (data : json) (k : string) : M json :=
  match data with
  | JObj kvs => lift_opt (Exn "KeyError" k) (dict_get k kvs)
  | _ => raise (Exn "TypeError" "subscript")
  end.

(** [str.join]. *)
Fixpoint py_join (sep : string) (l : list string) : string :=
  match l with
  | [] => EmptyString
  | [x] => x
  | x :: l' => x ++ sep ++ py_join sep l'
  end.

(** [str.isspace] on one character (Latin-1 range). *)
Definition py_isspace (c : ascii) : bool :=
  in_range 9 13 c || in_range 28 32 c
  || (nat_of_ascii c =? 133)%nat || (nat_of_ascii c =? 160)%nat.

Fixpoint lstrip (s : string) : string :=
  match s with
  | String c s' => if py_isspace c then lstrip s' else s
  | EmptyString => EmptyString
  end.

Fixpoint rev_str (s : string) : string :=
  match s with
  | EmptyString => EmptyString
  | String c s' => rev_str s' ++ String c EmptyString
  end.

(** [str.strip()]: whitespace removed at both ends. *)
Definition py_strip (s : string) : string := rev_str (lstrip (rev_str (lstrip s))).

Section Script.

Variable w : world.
Variable lib : pylib.

(** [urllib.request.urlopen]: the default opener's [HTTPErrorProcessor]
    hands every response whose status is not in [200, 300) to the error
    handlers; with no redirect followed for the methods used here, these
    raise [HTTPError]. A transport failure raises [URLError]. *)
Definition urlopen (r : http_reply) : M (Z * string) :=
  match r with
  | NetError m => raise (Exn "URLError" m)
  | Response st body =>
      if (200 <=? st)%Z && (st <? 300)%Z then ret (st, body)
      else raise (Exn "HTTPError" ("HTTP Error " ++ str_of_int lib st))
  end.

(** Line 39. *)
Definition oembed_url (video_id : string) : string :=
  "https://www.youtube.com/oembed?url=https://www.youtube.com/watch?v="
  ++ video_id ++ "&format=json".

(** [fetch_video_title] (lines 36-44). *)
Definition fetch_video_title (video_id : string) : M json :=
  try_except
    (let url := oembed_url video_id in
     emit (HttpGet url) ;;;
     resp <- urlopen (http_get w url) ;;
     data <- lift_opt (Exn "JSONDecodeError" "") (json_loads lib (snd resp)) ;;
     subscript data "title")
    (fun _ => ret (JStr video_id)).

(** [TranscriptList._find_transcript] over one dictionary. *)
Fixpoint find_in (codes : list string) (d : list track) : option track :=
  match codes with
  | [] => None
  | c :: cs =>
      match find (fun t => String.eqb (language_code t) c) d with
      | Some t => Some t
      | None => find_in cs d
      end
  end.

Definition find_manually_created_transcript (tl : transcript_list)
    (codes : list string) : M track :=
  lift_opt (Exn "NoTranscriptFound" "") (find_in codes (manually_created tl)).

Definition find_generated_transcript (tl : transcript_list)
    (codes : list string) : M track :=
  lift_opt (Exn "NoTranscriptFound" "") (find_in codes (generated tl)).

(** [next(iter(transcript_list))]: manual tracks first, then generated. *)
Definition next_iter (tl : transcript_list) : M track :=
  match (manually_created tl ++ generated tl)%list with
  | t :: _ => ret t
  | [] => raise (Exn "StopIteration" "")
  end.

Definition translate (t : track) (lang : string) : M track :=
  lift_opt (Exn "NotTranslatable" "") (yt_translate lib t lang).

(** Lines 53-63 of [fetch_transcript]: the track selection. *)
Definition select_transcript (tl : transcript_list) : M track :=
  try_except (find_manually_created_transcript tl ["en"])
    (fun _ =>
       try_except (find_generated_transcript tl ["en"])
         (fun _ =>
            transcript <- next_iter tl ;;
            translate transcript "en")).

(** [fetch_transcript] (lines 47-69). *)
Definition fetch_transcript (video_id : string) : M string :=
  try_except
    (emit (ListTranscripts video_id) ;;;
     transcript_list <- lift_opt (Exn "CouldNotRetrieveTranscript" "")
                                 (yt_list w video_id) ;;
     transcript <- select_transcript transcript_list ;;
     emit (FetchTrack transcript) ;;;
     entries <- lift_opt (Exn "CouldNotRetrieveTranscript" "")
                         (yt_fetch w transcript) ;;
     ret (py_join " " (map text entries)))
    (fun e => print_err ("Error fetching transcript: " ++ exn_msg e) ;;;
              sys_exit 1%Z).

(** [summarize] (lines 72-99). *)

Definition max_chars : Z := 100000.

Definition truncation_marker : string := nl ++ "[transcript truncated]".

(** Lines 76-79: the hard cutoff before the request. *)
Definition truncate_transcript (transcript : string) : string :=
  if (max_chars <? Z.of_nat (String.length transcript))%Z
  then substring 0 (Z.to_nat max_chars) transcript ++ truncation_marker
  else transcript.

Definition prompt_prefix : string :=
  "Below is a transcript of a YouTube video. "
  ++ "Please provide a structured summary with:" ++ nl
  ++ "1. A one-line TLDR" ++ nl
  ++ "2. Key points (bulleted)" ++ nl
  ++ "3. A brief conclusion" ++ nl ++ nl
  ++ "Keep the summary concise and readable." ++ nl ++ nl
  ++ "TRANSCRIPT:" ++ nl.

Definition model_name : string := "claude-sonnet-4-20250514".

Definition summarize (transcript : string) : M string :=
  let transcript := truncate_transcript transcript in
  let prompt := prompt_prefix ++ transcript in
  emit (Completion model_name 1024 prompt) ;;;
  content <- lift_opt (Exn "APIError" "") (claude w model_name 1024 prompt) ;;
  match content with
  | TextBlock t :: _ => ret t
  | OtherBlock _ :: _ => raise (Exn "AttributeError" "text")
  | [] => raise (Exn "IndexError" "list index out of range")
  end.

(** [send_to_obsidian] (lines 102-147). *)

(** The character class of line 113: backslash, slash, colon, star,
    question mark, double quote, less-than, greater-than, bar. *)
Definition forbidden_char (c : ascii) : bool :=
  existsb (fun n => (nat_of_ascii c =? n)%nat) [92; 47; 58; 42; 63; 34; 60; 62; 124].

(** [re.sub] of that class by a hyphen. *)
Fixpoint replace_forbidden (s : string) : string :=
  match s with
  | EmptyString => EmptyString
  | String c s' =>
      String (if forbidden_char c then "-"%char else c) (replace_forbidden s')
  end.

Definition sanitize_title (title : string) : string :=
  py_strip (replace_forbidden title).

(** Lines 113-114. *)
Definition note_path_of (folder title : string) : string :=
  folder ++ "/" ++ sanitize_title title ++ ".md".

Definition env_get (k default : string) : string :=
  match environ w k with Some v => v | None => default end.

Definition note_content_of (video_id summary : string) : string :=
  "---" ++ nl
  ++ "source: https://www.youtube.com/watch?v=" ++ video_id ++ nl
  ++ "type: youtube-summary" ++ nl
  ++ "---" ++ nl ++ nl
  ++ summary ++ nl.

(** Line 124. *)
Definition obsidian_url (port : Z) (note_path : string) : string :=
  "https://127.0.0.1:" ++ str_of_int lib port ++ "/vault/" ++ quote lib note_path "/".

(** Lines 135-138. *)
Definition obsidian_headers (api_key : string) : list (string * string) :=
  [("Authorization", "Bearer " ++ api_key); ("Content-Type", "text/markdown")].

(** [re.sub] accepts only a string (or bytes) as its subject. *)
Definition expect_str (v : json) : M string :=
  match v with
  | JStr s => ret s
  | _ => raise (Exn "TypeError" "expected string or bytes-like object")
  end.

Definition send_to_obsidian (title : json) (video_id summary : string) : M unit :=
  match environ w "OBSIDIAN_REST_API_KEY" with
  | None | Some EmptyString =>
      print_err "Error: OBSIDIAN_REST_API_KEY environment variable not set." ;;;
      sys_exit 1%Z
  | Some api_key =>
      port <- lift_opt (Exn "ValueError" "invalid literal for int()")
                       (py_int lib (env_get "OBSIDIAN_REST_PORT" "27124")) ;;
      let folder := env_get "OBSIDIAN_SUMMARY_FOLDER" "transcripts/videos" in
      title <- expect_str title ;;
      let note_path := note_path_of folder title in
      let note_content := note_content_of video_id summary in
      let url := obsidian_url port note_path in
      let headers := obsidian_headers api_key in
      try_except
        (emit (HttpPut url headers note_content) ;;;
         resp <- urlopen (http_put w url headers note_content) ;;
         if (fst resp <? 300)%Z
         then print_err ("Saved to Obsidian: " ++ note_path)
         else ret tt)
        (fun e => print_err ("Error sending to Obsidian: " ++ exn_msg e) ;;;
                  sys_exit 1%Z)
  end.

(** [str(title)] in the f-string of line 160. *)
Definition format_value (v : json) : string :=
  match v with JStr s => s | _ => py_str lib v end.

(** [main] (lines 150-169), after [argparse] has produced [url] and
    [no_obsidian]. *)
Definition main (url : string) (no_obsidian : bool) : M unit :=
  video_id <- extract_video_id url ;;
  print_err ("Fetching transcript for video: " ++ video_id ++ " ...") ;;;
  title <- fetch_video_title video_id ;;
  print_err ("Video title: " ++ format_value title) ;;;
  transcript <- fetch_transcript video_id ;;
  print_err ("Transcript fetched (" ++ str_of_int lib (Z.of_nat (String.length transcript))
             ++ " chars). Summarizing ...") ;;;
  summary <- summarize transcript ;;
  print_out summary ;;;
  if negb no_obsidian then send_to_obsidian title video_id summary else ret tt.

(** Lines 168-169 of [main]. *)
Definition send_or_skip (no_obsidian : bool) (title : json) (video_id summary : string)
    : M unit :=
  if negb no_obsidian then send_to_obsidian title video_id summary else ret tt.

(** Lines 156-165 of [main]: the stages up to the Summarizer. *)
Definition main_prefix (url : string) : M (string * json * string) :=
  video_id <- extract_video_id url ;;
  print_err ("Fetching transcript for video: " ++ video_id ++ " ...") ;;;
  title <- fetch_video_title video_id ;;
  print_err ("Video title: " ++ format_value title) ;;;
  transcript <- fetch_transcript video_id ;;
  print_err ("Transcript fetched (" ++ str_of_int lib (Z.of_nat (String.length transcript))
             ++ " chars). Summarizing ...") ;;;
  summary <- summarize transcript ;;
  ret (video_id, title, summary).

(** Lines 166-169 of [main]. *)
Definition main_rest (no_obsidian : bool) (r : string * json * string) : M unit :=
  let '(video_id, title, summary) := r in
  print_out summary ;;;
  send_or_skip no_obsidian title video_id summary.

(** The process: an uncaught exception prints a traceback and exits with
    status 1; [sys.exit(c)] exits with [c]; normal return exits with 0. *)
Definition run (url : string) (no_obsidian : bool) : Z * list event :=
  match main url no_obsidian [] with
  | (Ok _, tr) => (0%Z, tr)
  | (Exit c, tr) => (c, tr)
  | (Raise e, tr) =>
      (1%Z, (tr ++ [Stderr ("Traceback (most recent call last): "
                            ++ exn_type e ++ ": " ++ exn_msg e ++ nl)])%list)
  end.

End Script.

(** ** Example environments *)

Definition example_lib : pylib :=
  PyLib (fun s => if String.eqb s "{}" then Some (JObj [])
                  else Some (JObj [("title", JStr "My: Video? <Test>")]))
        (fun s => if String.eqb s "27124" then Some 27124%Z else None)
        (fun _ => "27124") (fun s _ => s) (fun _ => "null")
        (fun t l => Some (Track l false (track_url t))).

(** A run in which every service answers, and the document store replies
    with [status]. *)
Definition example_world (status : Z) : world :=
  World (fun k => if String.eqb k "OBSIDIAN_REST_API_KEY" then Some "secret" else None)
        (fun _ => Response 200 "title")
        (fun _ _ _ => Response status EmptyString)
        (fun _ => Some (TranscriptList [] [Track "de" true "u"]))
        (fun _ => Some [Snippet "Hello" 0 1; Snippet "world" 1 1; Snippet "!" 2 1])
        (fun _ _ _ => Some [TextBlock "TLDR"]).

(** The same run without the credential. *)
Definition example_world_nokey : world :=
  World (fun _ => None) (http_get (example_world 200)) (http_put (example_world 200))
        (yt_list (example_world 200)) (yt_fetch (example_world 200))
        (claude (example_world 200)).






(** The metadata endpoint answers [201 Created] with a title. *)
Definition example_world_created : world :=
  World (environ (example_world 200)) (fun _ => Response 201 "title")
        (http_put (example_world 200)) (yt_list (example_world 200))
        (yt_fetch (example_world 200)) (claude (example_world 200)).


(** ** Notions used by the properties *)

(** The five URL shapes of [patterns], with an identifier [v] embedded. *)
Definition url_shapes (v : string) : list string :=
  [ "youtu.be/" ++ v;
    "youtube.com/watch?v=" ++ v;
    "youtube.com/embed/" ++ v;
    "youtube.com/v/" ++ v;
    "youtube.com/shorts/" ++ v ].

Fixpoint no_newline (s : string) : bool :=
  match s with
  | EmptyString => true
  | String c s' => negb (Ascii.eqb c (char_of 10)) && no_newline s'
  end.

(** [c] does not occur in [s]. *)
Fixpoint no_char (c : ascii) (s : string) : bool :=
  match s with
  | EmptyString => true
  | String d s' => negb (Ascii.eqb d c) && no_char c s'
  end.

Definition extract_error_message (url : string) : string :=
  "Error: Could not extract video ID from: " ++ url ++ nl.

Fixpoint all_space (s : string) : bool :=
  match s with
  | EmptyString => true
  | String c s' => py_isspace c && all_space s'
  end.

Fixpoint no_forbidden (s : string) : bool :=
  match s with
  | EmptyString => true
  | String c s' => negb (forbidden_char c) && no_forbidden s'
  end.

Definition is_put (e : event) : bool :=
  match e with HttpPut _ _ _ => true | _ => false end.

Definition not_put (e : event) : bool := negb (is_put e).

(** [m] only appends events satisfying [ok] to the trace, and every
    [sys.exit] it performs has status 1. *)
Definition appends {A} (ok : event -> bool) (m : M A) : Prop :=
  forall tr, exists s, snd (m tr) = (tr ++ s)%list /\ forallb ok s = true
             /\ forall c, fst (m tr) = Exit c -> c = 1%Z.

Definition missing_key_message : string :=
  "Error: OBSIDIAN_REST_API_KEY environment variable not set." ++ nl.




(** * Properties *)

(** ** Strings *)

Lemma sapp_nil_r (s : string) : s ++ EmptyString = s.
Proof. induction s as [|c s IH]; simpl; congruence. Qed.

Lemma sapp_assoc (a b c : string) : (a ++ b) ++ c = a ++ (b ++ c).
Proof. induction a as [|x a IH]; simpl; congruence. Qed.

Lemma slength_app (a b : string) :
  String.length (a ++ b) = (String.length a + String.length b)%nat.
Proof. induction a as [|x a IH]; simpl; congruence. Qed.

Lemma sdrop_app (a b : string) : sdrop (String.length a) (a ++ b) = b.
Proof. induction a as [|x a IH]; simpl; auto. Qed.

Lemma starts_with_app (p b : string) : starts_with p (p ++ b) = true.
Proof.
  induction p as [|c p IH]; simpl; auto.
  rewrite Ascii.eqb_refl; exact IH.
Qed.

Lemma starts_with_sdrop (p s : string) :
  starts_with p s = true -> s = p ++ sdrop (String.length p) s.
Proof.
  revert s; induction p as [|c p IH]; intros s H; simpl; auto.
  destruct s as [|d s]; [discriminate|].
  simpl in H; apply andb_prop in H as [Hc H].
  apply Ascii.eqb_eq in Hc; subst; f_equal; auto.
Qed.

(** ** The identifier resolver *)

Lemma take_id_some (n : nat) (s g : string) :
  take_id n s = Some g ->
  String.length g = n /\ all_id_chars g = true /\ s = g ++ sdrop n s.
Proof.
  revert s g; induction n as [|n IH]; intros s g H; simpl in H.
  - inversion H; subst; auto.
  - destruct s as [|c s']; [discriminate|].
    destruct (is_id_char c) eqn:Hc; [|discriminate].
    destruct (take_id n s') as [g'|] eqn:Ht; simpl in H; inversion H; subst.
    destruct (IH _ _ Ht) as (Hl & Ha & He).
    simpl; rewrite Hl, Ha, Hc, <- He; auto.
Qed.

Lemma take_id_valid (s g : string) :
  take_id 11 s = Some g -> valid_id g = true.
Proof.
  intros H; destruct (take_id_some _ _ _ H) as (Hl & Ha & _).
  unfold valid_id; rewrite Hl, Ha; reflexivity.
Qed.

Lemma take_id_app (n : nat) (g b : string) :
  String.length g = n -> all_id_chars g = true -> take_id n (g ++ b) = Some g.
Proof.
  revert n; induction g as [|c g IH]; intros n Hl Ha; cbn [String.length] in Hl;
    subst; [reflexivity|].
  cbn [all_id_chars] in Ha; apply andb_prop in Ha as [Hc Ha].
  cbn [take_id append]; rewrite Hc, (IH _ eq_refl Ha); reflexivity.
Qed.

Lemma all_id_chars_app (a b : string) :
  all_id_chars (a ++ b) = all_id_chars a && all_id_chars b.
Proof.
  induction a as [|c a IH]; simpl; [reflexivity|].
  rewrite IH, andb_assoc; reflexivity.
Qed.

Lemma fullmatch_id_valid (s : string) : fullmatch_id s = valid_id s.
Proof.
  unfold fullmatch_id, valid_id.
  destruct (take_id 11 s) as [g|] eqn:Ht.
  - destruct (take_id_some _ _ _ Ht) as (Hl & Ha & He).
    revert He; generalize (sdrop 11 s); intros d He; subst s.
    rewrite slength_app, Hl, all_id_chars_app, Ha.
    destruct d as [|c r]; [reflexivity|].
    cbn [String.eqb String.length].
    replace (11 + S (String.length r) =? 11)%nat with false; [reflexivity|].
    symmetry; apply Nat.eqb_neq; lia.
  - symmetry.
    destruct ((String.length s =? 11)%nat) eqn:Hl; [|reflexivity].
    destruct (all_id_chars s) eqn:Ha; [|reflexivity].
    apply Nat.eqb_eq in Hl.
    rewrite <- (sapp_nil_r s), (take_id_app 11 s EmptyString Hl Ha) in Ht.
    discriminate.
Qed.

Lemma lit_then_id_valid (l s g : string) :
  lit_then_id l s = Some g -> valid_id g = true.
Proof.
  unfold lit_then_id; destruct (starts_with l s); [apply take_id_valid|discriminate].
Qed.

Lemma dotstar_v_id_valid (s g : string) :
  dotstar_v_id s = Some g -> valid_id g = true.
Proof.
  induction s as [|c s IH]; simpl; [apply lit_then_id_valid|].
  destruct (Ascii.eqb c (char_of 10)); [apply lit_then_id_valid|].
  destruct (dotstar_v_id s); [intros [= <-]; auto|apply lit_then_id_valid].
Qed.

Lemma watch_then_id_valid (s g : string) :
  watch_then_id s = Some g -> valid_id g = true.
Proof.
  unfold watch_then_id; destruct (starts_with _ s); [apply dotstar_v_id_valid|discriminate].
Qed.

Lemma patterns_valid (p : string -> option string) (s g : string) :
  In p patterns -> p s = Some g -> valid_id g = true.
Proof.
  intros Hin; simpl in Hin.
  repeat destruct Hin as [<-|Hin];
    try apply lit_then_id_valid; try apply watch_then_id_valid; contradiction.
Qed.

(** [re.search] succeeds exactly at the leftmost position where the
    anchored matcher succeeds. *)
Lemma re_search_leftmost (m : string -> option string) (s g : string) :
  re_search m s = Some g ->
  exists i, m (sdrop i s) = Some g /\ (forall j, (j < i)%nat -> m (sdrop j s) = None).
Proof.
  induction s as [|c s IH]; simpl.
  - destruct (m EmptyString) eqn:H; intros E; [|discriminate].
    exists 0%nat; split; [simpl; congruence|intros j Hj; lia].
  - destruct (m (String c s)) eqn:H; intros E.
    + exists 0%nat; split; [simpl; congruence|intros j Hj; lia].
    + destruct (IH E) as (i & Hi & Hlt); exists (S i); split; [exact Hi|].
      intros [|j] Hj; [exact H|apply Hlt; lia].
Qed.

Lemma re_search_skip (m : string -> option string) (a r : string) :
  (forall j, (j < String.length a)%nat -> m (sdrop j (a ++ r)) = None) ->
  re_search m (a ++ r) = re_search m r.
Proof.
  induction a as [|c a IH]; intros H; [reflexivity|].
  cbn [append re_search].
  pose proof (H 0%nat ltac:(simpl; lia)) as H0; cbn [sdrop append] in H0.
  rewrite H0; apply IH; intros j Hj; apply (H (S j)); simpl; lia.
Qed.

Lemma re_search_here (m : string -> option string) (s g : string) :
  m s = Some g -> re_search m s = Some g.
Proof. destruct s; simpl; intros ->; reflexivity. Qed.

Lemma re_search_valid (m : string -> option string) (s g : string) :
  (forall s g, m s = Some g -> valid_id g = true) ->
  re_search m s = Some g -> valid_id g = true.
Proof.
  intros Hm H; destruct (re_search_leftmost _ _ _ H) as (i & Hi & _); eauto.
Qed.

Lemma first_search_some (ps : list (string -> option string)) (url g : string) :
  first_search ps url = Some g -> exists p, In p ps /\ re_search p url = Some g.
Proof.
  induction ps as [|p ps IH]; simpl; [discriminate|].
  destruct (re_search p url) eqn:H; [intros [= <-]; eauto|].
  intros E; destruct (IH E) as (q & Hq & Hs); eauto.
Qed.

Lemma first_search_none (ps : list (string -> option string)) (url : string) :
  first_search ps url = None <-> (forall p, In p ps -> re_search p url = None).
Proof.
  induction ps as [|p ps IH]; simpl; [split; auto; contradiction|].
  destruct (re_search p url) eqn:H; split.
  - discriminate.
  - intros Hall; rewrite (Hall p (or_introl eq_refl)) in H; discriminate.
  - intros E q [<-|Hq]; [exact H|apply IH; auto].
  - intros Hall; apply IH; auto.
Qed.

Lemma first_search_valid (url g : string) :
  first_search patterns url = Some g -> valid_id g = true.
Proof.
  intros H; destruct (first_search_some _ _ _ H) as (p & Hp & Hs).
  eapply re_search_valid; [|exact Hs]; intros; eapply patterns_valid; eauto.
Qed.

Lemma extract_video_id_found (url g : string) (tr : list event) :
  first_search patterns url = Some g -> extract_video_id url tr = (Ok g, tr).
Proof. intros H; unfold extract_video_id; rewrite H; reflexivity. Qed.


(** C1. [extract_video_id] returns an identifier exactly when one of the
    five patterns matches somewhere in the input (the capture of the first
    one in list order is returned) or the whole input is a bare identifier;
    what it returns is always 11 characters of [[a-zA-Z0-9_-]] and it
    prints nothing then. Otherwise it prints a diagnostic naming the input
    to the error stream and exits with status 1. *)
Theorem extract_video_id_spec (url : string) (tr : list event) :
  (forall g tr', extract_video_id url tr = (Ok g, tr') ->
                 valid_id g = true /\ tr' = tr)
  /\ ((exists g, fst (extract_video_id url tr) = Ok g) <->
      (exists p, In p patterns /\ re_search p url <> None) \/ valid_id url = true)
  /\ (forall g, first_search patterns url = Some g ->
                extract_video_id url tr = (Ok g, tr))
  /\ (first_search patterns url = None -> valid_id url = true ->
      extract_video_id url tr = (Ok url, tr))
  /\ ((forall p, In p patterns -> re_search p url = None) ->
      valid_id url = false ->
      extract_video_id url tr
      = (Exit 1%Z, (tr ++ [Stderr (extract_error_message url)])%list)).
Proof.
  unfold extract_video_id, extract_error_message.
  rewrite fullmatch_id_valid.
  destruct (first_search patterns url) as [g|] eqn:Hf.
  - pose proof (first_search_valid _ _ Hf) as Hv.
    destruct (first_search_some _ _ _ Hf) as (p & Hp & Hs).
    split; [intros g' tr1 [= <- <-]; auto|].
    split; [split; [intros _; left; exists p; split; [exact Hp|congruence]
                   |intros _; exists g; reflexivity]|].
    split; [intros g' [= <-]; reflexivity|].
    split; [discriminate|].
    intros Hall; rewrite (Hall p Hp) in Hs; discriminate.
  - pose proof (proj1 (first_search_none _ _) Hf) as Hall.
    destruct (valid_id url) eqn:Hv.
    + split; [intros g tr1 [= <- <-]; auto|].
      split; [split; [intros _; right; reflexivity|intros _; exists url; reflexivity]|].
      split; [discriminate|].
      split; [reflexivity|discriminate].
    + split; [intros g tr1 H; discriminate|].
      split; [split; [intros [g H]; discriminate|]|].
      { intros [(p & Hp & Hs)|H]; [exfalso; apply Hs, Hall, Hp|discriminate]. }
      split; [discriminate|].
      split; [discriminate|reflexivity].
Qed.

(** ** Matching of the URL shapes *)

Lemma lit_then_id_app (l v b : string) :
  valid_id v = true -> lit_then_id l (l ++ v ++ b) = Some v.
Proof.
  intros Hv; unfold lit_then_id; rewrite starts_with_app, sdrop_app.
  unfold valid_id in Hv; apply andb_prop in Hv as [Hl Ha].
  apply Nat.eqb_eq in Hl; apply take_id_app; auto.
Qed.

(** C10 as stated fails: the input contains the watch shape with
    [AAAAAAAAAAA] embedded, no earlier pattern matches, yet the greedy
    [.*] of the watch pattern captures the identifier after the later
    [v=]. *)
Lemma extract_video_id_watch_later_v :
  ~ (forall k sh a b v tr,
       valid_id v = true -> nth_error (url_shapes v) k = Some sh ->
       (forall j q, (j < k)%nat -> nth_error patterns j = Some q ->
                    re_search q (a ++ sh ++ b) = None) ->
       fst (extract_video_id (a ++ sh ++ b) tr) = Ok v).
Proof.
  intros H.
  specialize (H 1%nat ("youtube.com/watch?v=" ++ "AAAAAAAAAAA") EmptyString
                "&rv=BBBBBBBBBBB" "AAAAAAAAAAA" [] eq_refl eq_refl).
  assert (Hb : forall j q, (j < 1)%nat -> nth_error patterns j = Some q ->
            re_search q (EmptyString ++ ("youtube.com/watch?v=" ++ "AAAAAAAAAAA")
                         ++ "&rv=BBBBBBBBBBB") = None).
  { intros [|j] q Hj Hq; [|lia]. injection Hq as <-. vm_compute. reflexivity. }
  specialize (H Hb). vm_compute in H. discriminate.
Qed.

(** ** The summarizer's cutoff *)

Lemma substring_0_length (n : nat) (t : string) :
  (n <= String.length t)%nat -> String.length (substring 0 n t) = n.
Proof.
  revert t; induction n as [|n IH]; intros [|c t] H; simpl in *; try lia; auto.
  rewrite IH; auto; lia.
Qed.

Lemma substring_0_sdrop (n : nat) (t : string) :
  substring 0 n t ++ sdrop n t = t.
Proof.
  revert t; induction n as [|n IH]; intros [|c t]; simpl; auto.
  rewrite IH; reflexivity.
Qed.

Lemma summarize_dispatch (w : world) (t : string) (tr : list event) :
  snd (summarize w t tr)
  = (tr ++ [Completion model_name 1024 (prompt_prefix ++ truncate_transcript t)])%list.
Proof.
  unfold summarize, bind, emit, lift_opt, ret, raise; simpl.
  destruct (claude w _ _ _) as [[|[]]|]; reflexivity.
Qed.

(** C2. A transcript longer than 100,000 characters is replaced by its
    first 100,000 characters followed by a line feed and
    [[transcript truncated]]; a shorter one is left as it is; and the
    (possibly truncated) transcript is what the completion request
    carries, the request being the first thing [summarize] emits. *)
Theorem truncate_transcript_spec (t : string) :
  ((max_chars < Z.of_nat (String.length t))%Z ->
     truncate_transcript t
     = substring 0 (Z.to_nat max_chars) t ++ nl ++ "[transcript truncated]"
     /\ Z.of_nat (String.length (substring 0 (Z.to_nat max_chars) t)) = max_chars
     /\ exists rest, t = substring 0 (Z.to_nat max_chars) t ++ rest)
  /\ ((Z.of_nat (String.length t) <= max_chars)%Z -> truncate_transcript t = t)
  /\ (forall w tr,
        snd (summarize w t tr)
        = (tr ++ [Completion model_name 1024 (prompt_prefix ++ truncate_transcript t)])%list).
Proof.
  assert (Hm : Z.of_nat (Z.to_nat max_chars) = max_chars)
    by (apply Z2Nat.id; unfold max_chars; lia).
  unfold truncate_transcript, truncation_marker.
  split; [|split].
  - intros Hlt; rewrite (proj2 (Z.ltb_lt _ _) Hlt).
    split; [reflexivity|split].
    + rewrite substring_0_length; [exact Hm|lia].
    + exists (sdrop (Z.to_nat max_chars) t); symmetry; apply substring_0_sdrop.
  - intros Hle; destruct (max_chars <? _)%Z eqn:E; [apply Z.ltb_lt in E; lia|reflexivity].
  - intros w tr; apply summarize_dispatch.
Qed.

(** ** Joining the transcript entries *)

Lemma py_join_cons (sep x : string) (l : list string) :
  py_join sep (x :: l) = x ++ fold_right (fun y acc => sep ++ y ++ acc) EmptyString l.
Proof.
  revert x; induction l as [|y l IH]; intros x; simpl.
  - rewrite sapp_nil_r; reflexivity.
  - rewrite <- IH; reflexivity.
Qed.

Lemma select_transcript_pure (lib : pylib) (tl : transcript_list) (tr : list event) :
  select_transcript lib tl tr = (fst (select_transcript lib tl []), tr).
Proof.
  unfold select_transcript, try_except, find_manually_created_transcript,
    find_generated_transcript, next_iter, translate, lift_opt, bind, ret, raise.
  destruct (find_in _ (manually_created tl)); [reflexivity|].
  destruct (find_in _ (generated tl)); [reflexivity|].
  destruct (manually_created tl ++ generated tl)%list; [reflexivity|].
  destruct (yt_translate lib _ _); reflexivity.
Qed.

(** C7. Once a track is selected and its entries fetched,
    [fetch_transcript] returns their texts, in order, joined by single
    spaces; timing fields play no part. *)
Theorem fetch_transcript_join (w : world) (lib : pylib) (video_id : string)
    (tl : transcript_list) (t : track) (entries : list snippet) (tr : list event) :
  yt_list w video_id = Some tl ->
  fst (select_transcript lib tl []) = Ok t ->
  yt_fetch w t = Some entries ->
  fetch_transcript w lib video_id tr
  = (Ok (py_join " " (map text entries)),
     (tr ++ [ListTranscripts video_id; FetchTrack t])%list)
  /\ (forall e es, map text entries = e :: es ->
        py_join " " (map text entries)
        = e ++ fold_right (fun y acc => " " ++ y ++ acc) EmptyString es)
  /\ py_join " " ["Hello"; "world"; "!"] = "Hello world !".
Proof.
  intros Hl Hs Hf; split; [|split].
  - unfold fetch_transcript, try_except, bind, emit, lift_opt, ret.
    rewrite Hl, select_transcript_pure, Hs, Hf.
    rewrite <- ?app_assoc; reflexivity.
  - intros e es ->; apply py_join_cons.
  - reflexivity.
Qed.

(** ** The note path *)

Lemma all_space_app (a b : string) :
  all_space (a ++ b) = all_space a && all_space b.
Proof. induction a as [|c a IH]; simpl; [reflexivity|rewrite IH, andb_assoc; reflexivity]. Qed.

Lemma no_forbidden_app (a b : string) :
  no_forbidden (a ++ b) = no_forbidden a && no_forbidden b.
Proof. induction a as [|c a IH]; simpl; [reflexivity|rewrite IH, andb_assoc; reflexivity]. Qed.

Lemma rev_str_app (a b : string) : rev_str (a ++ b) = rev_str b ++ rev_str a.
Proof.
  induction a as [|c a IH]; simpl; [rewrite sapp_nil_r; reflexivity|].
  rewrite IH, sapp_assoc; reflexivity.
Qed.

Lemma rev_str_involutive (s : string) : rev_str (rev_str s) = s.
Proof.
  induction s as [|c s IH]; simpl; [reflexivity|].
  rewrite rev_str_app, IH; reflexivity.
Qed.

Lemma all_space_rev (s : string) : all_space (rev_str s) = all_space s.
Proof.
  induction s as [|c s IH]; simpl; [reflexivity|].
  rewrite all_space_app, IH; simpl; rewrite andb_true_r, andb_comm; reflexivity.
Qed.

Lemma lstrip_spec (s : string) :
  exists l, s = l ++ lstrip s /\ all_space l = true /\
            (forall c r, lstrip s = String c r -> py_isspace c = false).
Proof.
  induction s as [|c s IH]; simpl.
  - exists EmptyString; repeat split; discriminate.
  - destruct (py_isspace c) eqn:Hc.
    + destruct IH as (l & E & Hl & Hf); exists (String c l); simpl.
      rewrite Hc, Hl, <- E; auto.
    + exists EmptyString; repeat split; auto; intros c' r [= <- _]; exact Hc.
Qed.

(** [str.strip()] removes exactly a maximal run of whitespace at each end. *)
Lemma py_strip_spec (s : string) :
  exists l r, s = l ++ py_strip s ++ r /\ all_space l = true /\ all_space r = true
  /\ (forall c x, py_strip s = String c x -> py_isspace c = false)
  /\ (forall c x, rev_str (py_strip s) = String c x -> py_isspace c = false).
Proof.
  unfold py_strip.
  destruct (lstrip_spec s) as (l1 & E1 & H1 & F1).
  destruct (lstrip_spec (rev_str (lstrip s))) as (l2 & E2 & H2 & F2).
  set (u := lstrip s) in *; set (v := lstrip (rev_str u)) in *.
  assert (Eu : u = rev_str v ++ rev_str l2)
    by (rewrite <- rev_str_app, <- E2, rev_str_involutive; reflexivity).
  exists l1, (rev_str l2); split; [|split; [exact H1|split; [rewrite all_space_rev; exact H2|split]]].
  - rewrite E1 at 1; rewrite Eu; reflexivity.
  - intros c x Hx; apply (F1 c (x ++ rev_str l2)).
    rewrite Eu, Hx; reflexivity.
  - intros c x Hx; rewrite rev_str_involutive in Hx; exact (F2 c x Hx).
Qed.

Lemma replace_forbidden_get (s : string) (i : nat) :
  String.get i (replace_forbidden s)
  = option_map (fun c => if forbidden_char c then "-"%char else c) (String.get i s).
Proof.
  revert i; induction s as [|c s IH]; intros [|i]; simpl; auto.
Qed.

Lemma replace_forbidden_length (s : string) :
  String.length (replace_forbidden s) = String.length s.
Proof. induction s as [|c s IH]; simpl; congruence. Qed.

Lemma replace_forbidden_clean (s : string) : no_forbidden (replace_forbidden s) = true.
Proof.
  induction s as [|c s IH]; simpl; [reflexivity|rewrite IH, andb_true_r].
  destruct (forbidden_char c) eqn:Hc; [reflexivity|rewrite Hc; reflexivity].
Qed.

(** C8. The note path is [<folder>/<title'>.md] where [title'] is the title
    with each of the nine forbidden characters replaced by a hyphen (every
    other character kept, position by position), then stripped of the
    whitespace at both ends; no forbidden character is left. The title
    [My: Video? <Test>] gives the file name [My- Video- -Test-.md]. *)
Theorem note_path_sanitized :
  (forall folder title,
     note_path_of folder title
     = folder ++ "/" ++ py_strip (replace_forbidden title) ++ ".md")
  /\ (forall title,
        String.length (replace_forbidden title) = String.length title
        /\ forall i, String.get i (replace_forbidden title)
                     = option_map (fun c => if forbidden_char c then "-"%char else c)
                                  (String.get i title))
  /\ (forall title,
        exists l r, replace_forbidden title = l ++ sanitize_title title ++ r
        /\ all_space l = true /\ all_space r = true
        /\ (forall c x, sanitize_title title = String c x -> py_isspace c = false)
        /\ (forall c x, rev_str (sanitize_title title) = String c x -> py_isspace c = false))
  /\ (forall title, no_forbidden (sanitize_title title) = true)
  /\ (forall folder,
        note_path_of folder "My: Video? <Test>" = folder ++ "/My- Video- -Test-.md").
Proof.
  split; [|split; [|split; [|split]]].
  - reflexivity.
  - intros title; split; [apply replace_forbidden_length|apply replace_forbidden_get].
  - intros title; apply py_strip_spec.
  - intros title; unfold sanitize_title.
    destruct (py_strip_spec (replace_forbidden title)) as (l & r & E & _).
    pose proof (replace_forbidden_clean title) as H; rewrite E in H.
    rewrite !no_forbidden_app in H.
    apply andb_prop in H as [_ H]; apply andb_prop in H as [H _]; exact H.
  - intros folder; reflexivity.
Qed.

(** ** Selecting the caption track *)

Lemma find_in_en_some (d : list track) (t : track) :
  find_in ["en"] d = Some t -> In t d /\ language_code t = "en".
Proof.
  simpl; destruct (find _ d) eqn:H; [intros [= <-]|discriminate].
  apply find_some in H as [Hin Heq]; apply String.eqb_eq in Heq; auto.
Qed.

Lemma find_in_en_none (d : list track) :
  find_in ["en"] d = None -> forall t, In t d -> language_code t <> "en".
Proof.
  simpl; destruct (find _ d) eqn:H; [discriminate|intros _ t Hin].
  apply String.eqb_neq, (find_none _ _ H t Hin).
Qed.

Lemma find_in_en_exists (d : list track) (t : track) :
  In t d -> language_code t = "en" -> exists t', find_in ["en"] d = Some t'.
Proof.
  intros Hin Hl; destruct (find_in ["en"] d) as [t'|] eqn:H; eauto.
  exfalso; exact (find_in_en_none d H t Hin Hl).
Qed.

(** C3. The track is a manually created English one whenever one exists;
    otherwise an auto-generated English one whenever one exists; only when
    there is neither is the first enumerated track (manual ones first)
    translated into English, and with no track at all the selection
    raises [StopIteration]. *)
Theorem select_transcript_order (lib : pylib) (tl : transcript_list) (tr : list event) :
  (forall t, In t (manually_created tl) -> language_code t = "en" ->
     exists t', select_transcript lib tl tr = (Ok t', tr)
                /\ In t' (manually_created tl) /\ language_code t' = "en")
  /\ ((forall t, In t (manually_created tl) -> language_code t <> "en") ->
      forall t, In t (generated tl) -> language_code t = "en" ->
      exists t', select_transcript lib tl tr = (Ok t', tr)
                 /\ In t' (generated tl) /\ language_code t' = "en")
  /\ ((forall t, In t (manually_created tl) -> language_code t <> "en") ->
      (forall t, In t (generated tl) -> language_code t <> "en") ->
      select_transcript lib tl tr
      = match (manually_created tl ++ generated tl)%list with
        | t :: _ =>
            match yt_translate lib t "en" with
            | Some t' => (Ok t', tr)
            | None => (Raise (Exn "NotTranslatable" ""), tr)
            end
        | [] => (Raise (Exn "StopIteration" ""), tr)
        end).
Proof.
  unfold select_transcript, try_except, find_manually_created_transcript,
    find_generated_transcript, next_iter, translate, lift_opt, bind, ret, raise.
  split; [|split].
  - intros t Hin Hl; destruct (find_in_en_exists _ _ Hin Hl) as [t' Ht'].
    rewrite Ht'; exists t'; split; [reflexivity|apply find_in_en_some, Ht'].
  - intros Hm t Hin Hl.
    destruct (find_in ["en"] (manually_created tl)) as [tm|] eqn:Htm.
    { exfalso; destruct (find_in_en_some _ _ Htm) as [Hi He]; exact (Hm tm Hi He). }
    destruct (find_in_en_exists _ _ Hin Hl) as [t' Ht'].
    rewrite Ht'; exists t'; split; [reflexivity|apply find_in_en_some, Ht'].
  - intros Hm Hg.
    destruct (find_in ["en"] (manually_created tl)) as [tm|] eqn:Htm.
    { exfalso; destruct (find_in_en_some _ _ Htm) as [Hi He]; exact (Hm tm Hi He). }
    destruct (find_in ["en"] (generated tl)) as [tg|] eqn:Htg.
    { exfalso; destruct (find_in_en_some _ _ Htg) as [Hi He]; exact (Hg tg Hi He). }
    destruct (manually_created tl ++ generated tl)%list as [|t ts]; [reflexivity|].
    destruct (yt_translate lib t "en"); reflexivity.
Qed.

(** ** The metadata fetcher *)

(** C6. [fetch_video_title] never exits and never lets an exception out:
    it always returns a value, after one GET of the oEmbed URL and nothing
    else. A transport error, a status outside [200, 300) (which makes
    [urlopen] raise), a body that is not JSON, or a decoded value without a
    [title] key all give the identifier itself. A status in [200, 300),
    200 or not, whose body decodes to an object with a [title] gives that
    title. *)
Theorem fetch_video_title_fallback (w : world) (lib : pylib) (video_id : string)
    (tr : list event) :
  (exists v, fetch_video_title w lib video_id tr
             = (Ok v, (tr ++ [HttpGet (oembed_url video_id)])%list))
  /\ (forall m, http_get w (oembed_url video_id) = NetError m ->
        fst (fetch_video_title w lib video_id tr) = Ok (JStr video_id))
  /\ (forall st body, http_get w (oembed_url video_id) = Response st body ->
        ~ (200 <= st < 300)%Z ->
        fst (fetch_video_title w lib video_id tr) = Ok (JStr video_id))
  /\ (forall st body, http_get w (oembed_url video_id) = Response st body ->
        json_loads lib body = None ->
        fst (fetch_video_title w lib video_id tr) = Ok (JStr video_id))
  /\ (forall st body data, http_get w (oembed_url video_id) = Response st body ->
        json_loads lib body = Some data ->
        (forall kvs, data = JObj kvs -> dict_get "title" kvs = None) ->
        fst (fetch_video_title w lib video_id tr) = Ok (JStr video_id))
  /\ (forall st body kvs t, http_get w (oembed_url video_id) = Response st body ->
        (200 <= st < 300)%Z ->
        json_loads lib body = Some (JObj kvs) -> dict_get "title" kvs = Some t ->
        fst (fetch_video_title w lib video_id tr) = Ok t).
Proof.
  unfold fetch_video_title, try_except, bind, emit, urlopen, subscript, lift_opt,
    ret, raise.
  split; [|split; [|split; [|split; [|split]]]].
  - destruct (http_get w (oembed_url video_id)) as [m|st body]; [eauto|].
    destruct ((200 <=? st)%Z && (st <? 300)%Z); [|eauto]; simpl.
    destruct (json_loads lib body) as [[]|]; eauto.
    destruct (dict_get "title" kvs); eauto.
  - intros m ->; reflexivity.
  - intros st body -> Hst.
    destruct ((200 <=? st)%Z && (st <? 300)%Z) eqn:E; [|reflexivity].
    apply andb_prop in E as [E1 E2]; apply Z.leb_le in E1; apply Z.ltb_lt in E2.
    exfalso; apply Hst; lia.
  - intros st body -> Hj.
    destruct ((200 <=? st)%Z && (st <? 300)%Z); [|reflexivity]; simpl.
    rewrite Hj; reflexivity.
  - intros st body data -> Hj Ht.
    destruct ((200 <=? st)%Z && (st <? 300)%Z); [|reflexivity]; simpl.
    rewrite Hj; destruct data; try reflexivity.
    rewrite (Ht kvs eq_refl); reflexivity.
  - intros st body kvs t -> Hst Hj Ht.
    replace ((200 <=? st)%Z && (st <? 300)%Z) with true
      by (symmetry; apply andb_true_intro; split; [apply Z.leb_le|apply Z.ltb_lt]; lia).
    simpl; rewrite Hj, Ht; reflexivity.
Qed.

(** C6 as stated fails: a [201] answer is not [200], yet [urlopen] does
    not raise for it and the title in its body is returned, not the
    identifier. *)
Lemma fetch_video_title_status_201 :
  ~ (forall w lib video_id tr st body,
       http_get w (oembed_url video_id) = Response st body -> st <> 200%Z ->
       fst (fetch_video_title w lib video_id tr) = Ok (JStr video_id)).
Proof.
  intros H.
  specialize (H example_world_created example_lib "dQw4w9WgXcQ" [] 201%Z "title"
                eq_refl ltac:(discriminate)).
  vm_compute in H; discriminate.
Qed.

(** ** Traces only grow *)

Section Appends.

Variable ok : event -> bool.

Lemma appends_ret {A} (a : A) : appends ok (ret a).
Proof. intros tr; exists []; rewrite app_nil_r; split; [reflexivity|split; [reflexivity|discriminate]]. Qed.

Lemma appends_raise {A} (e : exn) : appends ok (@raise A e).
Proof. intros tr; exists []; rewrite app_nil_r; split; [reflexivity|split; [reflexivity|discriminate]]. Qed.

Lemma appends_exit1 {A} : appends ok (@sys_exit A 1%Z).
Proof. intros tr; exists []; rewrite app_nil_r; split; [reflexivity|split; [reflexivity|intros c [= <-]; reflexivity]]. Qed.

Lemma appends_emit (e : event) : ok e = true -> appends ok (emit e).
Proof.
  intros He tr; exists [e]; simpl; rewrite He; split; [reflexivity|split; [reflexivity|discriminate]].
Qed.

Lemma appends_lift_opt {A} (e : exn) (o : option A) : appends ok (lift_opt e o).
Proof. destruct o; [apply appends_ret|apply appends_raise]. Qed.

Lemma appends_bind {A B} (m : M A) (f : A -> M B) :
  appends ok m -> (forall a, appends ok (f a)) -> appends ok (bind m f).
Proof.
  intros Hm Hf tr; unfold bind.
  destruct (Hm tr) as (s1 & E1 & O1 & X1).
  destruct (m tr) as [[a|e|c] tr1]; simpl in E1, X1; subst tr1.
  - destruct (Hf a (tr ++ s1)%list) as (s2 & E2 & O2 & X2).
    exists (s1 ++ s2)%list; rewrite E2, app_assoc, forallb_app, O1, O2; auto.
  - exists s1; simpl; split; [reflexivity|split; [exact O1|discriminate]].
  - exists s1; simpl; split; [reflexivity|split; [exact O1|]].
    intros c' [= <-]; exact (X1 c eq_refl).
Qed.

Lemma appends_try {A} (m : M A) (h : exn -> M A) :
  appends ok m -> (forall e, appends ok (h e)) -> appends ok (try_except m h).
Proof.
  intros Hm Hh tr; unfold try_except.
  destruct (Hm tr) as (s1 & E1 & O1 & X1).
  destruct (m tr) as [[a|e|c] tr1]; simpl in E1, X1; subst tr1.
  - exists s1; simpl; split; [reflexivity|split; [exact O1|discriminate]].
  - destruct (Hh e (tr ++ s1)%list) as (s2 & E2 & O2 & X2).
    exists (s1 ++ s2)%list; rewrite E2, app_assoc, forallb_app, O1, O2; auto.
  - exists s1; simpl; split; [reflexivity|split; [exact O1|]].
    intros c' [= <-]; exact (X1 c eq_refl).
Qed.

End Appends.

Ltac appends_tac :=
  repeat match goal with
  | |- appends _ (bind _ _) => apply appends_bind; [|intros ?]
  | |- appends _ (try_except _ _) => apply appends_try; [|intros ?]
  | |- appends _ (ret _) => apply appends_ret
  | |- appends _ (raise _) => apply appends_raise
  | |- appends _ (sys_exit 1%Z) => apply appends_exit1
  | |- appends _ (emit _) => apply appends_emit; reflexivity
  | |- appends _ (lift_opt _ _) => apply appends_lift_opt
  | |- appends _ (let _ := _ in _) => cbv zeta
  | |- appends _ (match ?x with _ => _ end) => destruct x
  end.

Lemma main_prefix_no_put (w : world) (lib : pylib) (url : string) :
  appends not_put (main_prefix w lib url).
Proof.
  unfold main_prefix, extract_video_id, fetch_video_title, urlopen, subscript,
    fetch_transcript, select_transcript, find_manually_created_transcript,
    find_generated_transcript, next_iter, translate, summarize, print_err, print_out.
  appends_tac.
Qed.

Lemma send_to_obsidian_appends (w : world) (lib : pylib) (title : json)
    (video_id summary : string) :
  appends (fun _ => true) (send_to_obsidian w lib title video_id summary).
Proof.
  unfold send_to_obsidian, expect_str, urlopen, print_err.
  appends_tac.
Qed.

(** [main] is its prefix up to the Summarizer followed by the print and
    the optional publication. *)
Lemma main_split (w : world) (lib : pylib) (url : string) (no_obsidian : bool)
    (tr : list event) :
  main w lib url no_obsidian tr
  = bind (main_prefix w lib url) (main_rest w lib no_obsidian) tr.
Proof.
  unfold main, main_prefix, main_rest, bind, ret.
  destruct (extract_video_id url tr) as [[v|e|c] tr1]; try reflexivity.
  destruct (print_err _ tr1) as [[[]|e|c] tr2]; try reflexivity.
  destruct (fetch_video_title w lib v tr2) as [[t|e|c] tr3]; try reflexivity.
  destruct (print_err _ tr3) as [[[]|e|c] tr4]; try reflexivity.
  destruct (fetch_transcript w lib v tr4) as [[x|e|c] tr5]; try reflexivity.
  destruct (print_err _ tr5) as [[[]|e|c] tr6]; try reflexivity.
  destruct (summarize w x tr6) as [[y|e|c] tr7]; reflexivity.
Qed.

(** C9. Once the Summarizer has produced [summary], the summary is
    written to standard output, and only then does the Note Publisher run
    (on the trace that already holds it); whatever the publisher does,
    also when it ends the process, the printed summary stays in the run's
    output before anything the publisher emits. *)
Theorem summary_printed_before_publish (w : world) (lib : pylib) (url : string)
    (no_obsidian : bool) (tr : list event) (video_id : string) (title : json)
    (summary : string) (tr1 : list event) :
  main_prefix w lib url tr = (Ok (video_id, title, summary), tr1) ->
  exists o tr2,
    main w lib url no_obsidian tr = (o, (tr1 ++ Stdout (summary ++ nl) :: tr2)%list)
    /\ (no_obsidian = false ->
        send_to_obsidian w lib title video_id summary (tr1 ++ [Stdout (summary ++ nl)])%list
        = (o, (tr1 ++ Stdout (summary ++ nl) :: tr2)%list))
    /\ (no_obsidian = true -> o = Ok tt /\ tr2 = [])
    /\ (tr = [] -> exists post,
          snd (run w lib url no_obsidian) = (tr1 ++ Stdout (summary ++ nl) :: post)%list).
Proof.
  intros Hp.
  assert (Hm : main w lib url no_obsidian tr
               = send_or_skip w lib no_obsidian title video_id summary
                   (tr1 ++ [Stdout (summary ++ nl)])%list).
  { rewrite main_split; unfold bind; rewrite Hp; reflexivity. }
  unfold send_or_skip in Hm.
  destruct no_obsidian; simpl in Hm.
  - exists (Ok tt), []; rewrite Hm; unfold ret.
    split; [reflexivity|].
    split; [discriminate|split; [auto|]].
    intros ->; exists []; unfold run; rewrite Hm; reflexivity.
  - destruct (send_to_obsidian_appends w lib title video_id summary
                (tr1 ++ [Stdout (summary ++ nl)])%list) as (s & Es & _).
    destruct (send_to_obsidian w lib title video_id summary
                (tr1 ++ [Stdout (summary ++ nl)])%list) as [o tr'] eqn:E.
    simpl in Es; subst tr'.
    exists o, s; rewrite <- app_assoc in *; simpl in *.
    split; [exact Hm|split; [auto|split; [discriminate|]]].
    intros ->; unfold run; rewrite Hm.
    destruct o; simpl; [eexists; reflexivity|eexists; rewrite <- app_assoc; reflexivity|eexists; reflexivity].
Qed.

(** ** The Note Publisher *)

(** C5. Without [OBSIDIAN_REST_API_KEY] the publisher prints its
    diagnostic and exits with status 1 before anything else: no request
    is sent. A whole run with publishing enabled then ends with status 1
    and sends no PUT at all. *)
Theorem missing_credential (w : world) (lib : pylib) :
  environ w "OBSIDIAN_REST_API_KEY" = None ->
  (forall title video_id summary tr,
     send_to_obsidian w lib title video_id summary tr
     = (Exit 1%Z, (tr ++ [Stderr missing_key_message])%list))
  /\ (forall url, fst (run w lib url false) = 1%Z
                  /\ forallb not_put (snd (run w lib url false)) = true).
Proof.
  intros Hk.
  assert (Hs : forall title video_id summary tr,
             send_to_obsidian w lib title video_id summary tr
             = (Exit 1%Z, (tr ++ [Stderr missing_key_message])%list)).
  { intros; unfold send_to_obsidian; rewrite Hk; reflexivity. }
  split; [exact Hs|intros url].
  unfold run; rewrite main_split; unfold bind.
  destruct (main_prefix_no_put w lib url []) as (s & E & O & X).
  destruct (main_prefix w lib url []) as [[[[v t] sm]|e|c] tr1]; simpl in E, X; subst tr1.
  - change (main_rest w lib false (v, t, sm) s)
      with (send_to_obsidian w lib t v sm (s ++ [Stdout (sm ++ nl)])%list).
    rewrite Hs; simpl; split; [reflexivity|].
    rewrite !forallb_app, O; reflexivity.
  - simpl; rewrite forallb_app, O; split; reflexivity.
  - simpl; split; [apply X; reflexivity|exact O].
Qed.

(** C4 (as the code has it). With the credential set and the port
    readable, the PUT of the note is sent; a response whose status is in
    [200, 300) is a success (the note path is reported on the error stream
    and the process goes on), while any other status, which makes
    [urlopen] raise [HTTPError], and any transport error end the process
    with status 1 after a diagnostic. *)
Theorem send_to_obsidian_upload (w : world) (lib : pylib) (title video_id summary
    api_key : string) (port : Z) (tr : list event) :
  environ w "OBSIDIAN_REST_API_KEY" = Some api_key ->
  api_key <> EmptyString ->
  py_int lib (env_get w "OBSIDIAN_REST_PORT" "27124") = Some port ->
  let note_path := note_path_of (env_get w "OBSIDIAN_SUMMARY_FOLDER" "transcripts/videos")
                                title in
  let url := obsidian_url lib port note_path in
  let headers := obsidian_headers api_key in
  let body := note_content_of video_id summary in
  (forall st b, http_put w url headers body = Response st b -> (200 <= st < 300)%Z ->
     send_to_obsidian w lib (JStr title) video_id summary tr
     = (Ok tt, (tr ++ [HttpPut url headers body;
                       Stderr ("Saved to Obsidian: " ++ note_path ++ nl)])%list))
  /\ (forall st b, http_put w url headers body = Response st b -> ~ (200 <= st < 300)%Z ->
        exists msg, send_to_obsidian w lib (JStr title) video_id summary tr
        = (Exit 1%Z, (tr ++ [HttpPut url headers body;
                             Stderr ("Error sending to Obsidian: " ++ msg ++ nl)])%list))
  /\ (forall m, http_put w url headers body = NetError m ->
        send_to_obsidian w lib (JStr title) video_id summary tr
        = (Exit 1%Z, (tr ++ [HttpPut url headers body;
                             Stderr ("Error sending to Obsidian: " ++ m ++ nl)])%list)).
Proof.
  intros Hk Hne Hp note_path url headers body.
  assert (Hsend : forall r, http_put w url headers body = r ->
    send_to_obsidian w lib (JStr title) video_id summary tr
    = try_except
        (emit (HttpPut url headers body) ;;;
         resp <- urlopen lib r ;;
         if (fst resp <? 300)%Z
         then print_err ("Saved to Obsidian: " ++ note_path)
         else ret tt)
        (fun e => print_err ("Error sending to Obsidian: " ++ exn_msg e) ;;;
                  sys_exit 1%Z) tr).
  { intros r Hr; subst note_path url headers body; rewrite <- Hr.
    unfold send_to_obsidian; rewrite Hk.
    destruct api_key as [|c k]; [congruence|].
    unfold bind at 1, lift_opt at 1; rewrite Hp; reflexivity. }
  split; [|split].
  - intros st b Hr Hst; rewrite (Hsend _ Hr).
    unfold try_except, bind, print_err, emit, urlopen, ret.
    destruct Hst as [H1 H2].
    rewrite (proj2 (Z.leb_le _ _) H1), (proj2 (Z.ltb_lt _ _) H2); simpl.
    rewrite (proj2 (Z.ltb_lt _ _) H2), <- ?app_assoc; reflexivity.
  - intros st b Hr Hst; rewrite (Hsend _ Hr).
    unfold try_except, bind, print_err, emit, urlopen, raise, sys_exit.
    destruct ((200 <=? st)%Z && (st <? 300)%Z) eqn:E.
    { exfalso; apply andb_prop in E as [E1 E2].
      apply Z.leb_le in E1; apply Z.ltb_lt in E2; lia. }
    exists ("HTTP Error " ++ str_of_int lib st); simpl; rewrite <- ?app_assoc; reflexivity.
  - intros m Hr; rewrite (Hsend _ Hr).
    unfold try_except, bind, print_err, emit, urlopen, raise, sys_exit; simpl.
    rewrite <- ?app_assoc; reflexivity.
Qed.

(** C4 as stated fails: a final status of 101 is below 300, yet [urlopen]
    raises [HTTPError] for it (it is not in [200, 300)), so the publisher
    prints its error and exits with status 1. *)
Lemma send_to_obsidian_status_101 :
  (101 < 300)%Z
  /\ fst (send_to_obsidian (example_world 101) example_lib (JStr "My: Video? <Test>")
                           "dQw4w9WgXcQ" "TLDR" []) = Exit 1%Z.
Proof. split; [lia|vm_compute; reflexivity]. Qed.

(** ** Witnesses *)

Lemma send_to_obsidian_upload_witness :
  fst (send_to_obsidian (example_world 204) example_lib (JStr "My: Video? <Test>")
                        "dQw4w9WgXcQ" "TLDR" []) = Ok tt.
Proof.
  destruct (send_to_obsidian_upload (example_world 204) example_lib "My: Video? <Test>"
              "dQw4w9WgXcQ" "TLDR" "secret" 27124 [] eq_refl ltac:(discriminate) eq_refl)
    as [H _].
  rewrite (H 204%Z EmptyString eq_refl ltac:(lia)); reflexivity.
Defined.

Lemma missing_credential_witness :
  fst (run example_world_nokey example_lib "https://youtu.be/dQw4w9WgXcQ" false) = 1%Z.
Proof.
  exact (proj1 (proj2 (missing_credential example_world_nokey example_lib eq_refl)
                  "https://youtu.be/dQw4w9WgXcQ")).
Defined.

Lemma fetch_transcript_join_witness :
  fetch_transcript (example_world 200) example_lib "dQw4w9WgXcQ" []
  = (Ok "Hello world !", [ListTranscripts "dQw4w9WgXcQ"; FetchTrack (Track "en" false "u")]).
Proof.
  exact (proj1 (fetch_transcript_join (example_world 200) example_lib "dQw4w9WgXcQ"
                  (TranscriptList [] [Track "de" true "u"]) (Track "en" false "u")
                  [Snippet "Hello" 0 1; Snippet "world" 1 1; Snippet "!" 2 1] []
                  eq_refl eq_refl eq_refl)).
Defined.

Lemma summary_printed_before_publish_witness :
  exists post,
    snd (run (example_world 500) example_lib "https://youtu.be/dQw4w9WgXcQ" false)
    = (snd (main_prefix (example_world 500) example_lib "https://youtu.be/dQw4w9WgXcQ" [])
       ++ Stdout ("TLDR" ++ nl) :: post)%list.
Proof.
  destruct (summary_printed_before_publish (example_world 500) example_lib
              "https://youtu.be/dQw4w9WgXcQ" false [] "dQw4w9WgXcQ"
              (JStr "My: Video? <Test>") "TLDR"
              (snd (main_prefix (example_world 500) example_lib
                      "https://youtu.be/dQw4w9WgXcQ" []))
              ltac:(vm_compute; reflexivity))
    as (o & tr2 & _ & _ & _ & H).
  exact (H eq_refl).
Defined.

(** * Further properties of the script *)

(** ** The identifier resolver on plain identifiers *)

Lemma starts_with_id_chars (l s : string) :
  all_id_chars s = true -> all_id_chars l = false -> starts_with l s = false.
Proof.
  revert s; induction l as [|c l IH]; intros s Hs Hl; [discriminate|].
  destruct s as [|d s]; [reflexivity|].
  cbn [all_id_chars starts_with] in *; apply andb_prop in Hs as [Hd Hs].
  destruct (Ascii.eqb c d) eqn:E; [|reflexivity]; simpl.
  apply Ascii.eqb_eq in E; subst d; rewrite Hd in Hl; simpl in Hl.
  apply IH; assumption.
Qed.

Lemma re_search_none_suffixes (m : string -> option string) (s : string) :
  (forall a b, s = a ++ b -> m b = None) -> re_search m s = None.
Proof.
  induction s as [|c s IH]; intros H; simpl.
  - rewrite (H EmptyString EmptyString eq_refl); reflexivity.
  - rewrite (H EmptyString (String c s) eq_refl).
    apply IH; intros a b E; apply (H (String c a) b); rewrite E; reflexivity.
Qed.





Lemma dotstar_v_id_id_chars (s : string) :
  all_id_chars s = true -> dotstar_v_id s = None.
Proof.
  assert (Hv : forall s, all_id_chars s = true -> v_then_id s = None).
  { intros s' H; unfold v_then_id, lit_then_id.
    rewrite starts_with_id_chars by (exact H || reflexivity); reflexivity. }
  induction s as [|c s IH]; intros H; [reflexivity|].
  cbn [dotstar_v_id]; pose proof H as H'; cbn [all_id_chars] in H'.
  apply andb_prop in H' as [_ H']; rewrite (IH H'), (Hv _ H).
  destruct (Ascii.eqb c (char_of 10)); reflexivity.
Qed.

(** ** A later [v=] on a watch address *)

Lemma no_char_app (c : ascii) (a b : string) :
  no_char c (a ++ b) = no_char c a && no_char c b.
Proof. induction a as [|d a IH]; simpl; [reflexivity|]; rewrite IH, andb_assoc; reflexivity. Qed.

Lemma starts_with_no_char (c : ascii) (l s : string) :
  starts_with l s = true -> no_char c s = true -> no_char c l = true.
Proof.
  revert s; induction l as [|x l IH]; intros [|y s] Hs Hn; simpl in *;
    try reflexivity; try discriminate.
  apply andb_prop in Hs as [Hxy Hs]; apply Ascii.eqb_eq in Hxy; subst y.
  apply andb_prop in Hn as [Hx Hn]; rewrite Hx; simpl; exact (IH s Hs Hn).
Qed.

Lemma all_id_chars_no_char (c : ascii) (s : string) :
  is_id_char c = false -> all_id_chars s = true -> no_char c s = true.
Proof.
  intros Hc; induction s as [|d s IH]; simpl; [reflexivity|].
  intros H; apply andb_prop in H as [Hd H]; rewrite (IH H), andb_true_r.
  destruct (Ascii.eqb d c) eqn:E; [|reflexivity].
  apply Ascii.eqb_eq in E; subst d; congruence.
Qed.

Lemma no_newline_no_char (s : string) : no_newline s = no_char (char_of 10) s.
Proof. induction s as [|c s IH]; simpl; congruence. Qed.

(** A literal holding a dot is found nowhere in a string without one. *)
Lemma re_search_lit_no_dot (l s : string) :
  no_char "." l = false -> no_char "." s = true -> re_search (lit_then_id l) s = None.
Proof.
  intros Hl Hs; apply re_search_none_suffixes; intros a b ->.
  rewrite no_char_app in Hs; apply andb_prop in Hs as [_ Hb].
  unfold lit_then_id; destruct (starts_with l b) eqn:E; [|reflexivity].
  rewrite (starts_with_no_char _ _ _ E Hb) in Hl; discriminate.
Qed.

(** The greedy star skips any text without a line feed in front of a
    place where it succeeds. *)
Lemma dotstar_v_id_app (a s g : string) :
  no_newline a = true -> dotstar_v_id s = Some g -> dotstar_v_id (a ++ s) = Some g.
Proof.
  induction a as [|c a IH]; intros Ha Hs; [exact Hs|].
  simpl in Ha; apply andb_prop in Ha as [Hc Ha]; apply negb_true_iff in Hc.
  simpl; rewrite Hc, (IH Ha Hs); reflexivity.
Qed.

(** C10 (a slip in the code). On a watch address, the greedy [.*v=] of
    the second pattern captures the identifier after the LAST [v=] of the
    line, not the value of the [v] parameter: for a YouTube Mix link, whose
    query ends in [&rv=<seed>], [extract_video_id] returns the seed video
    [w] instead of the video [v] the address names. The text [m] between
    them is any text without a dot or a line feed, such as
    [&list=RD<w>&start_radio=1]. *)
Theorem extract_video_id_later_rv (v m w : string) (tr : list event) :
  valid_id v = true -> valid_id w = true ->
  no_newline m = true -> no_char "." m = true ->
  extract_video_id ("https://www.youtube.com/watch?v=" ++ v ++ m ++ "&rv=" ++ w) tr
  = (Ok w, tr).
Proof.
  intros Hv Hw Hnl Hdot.
  pose proof Hv as Hv'; unfold valid_id in Hv'; apply andb_prop in Hv' as [_ Hva].
  pose proof Hw as Hw'; unfold valid_id in Hw'; apply andb_prop in Hw' as [_ Hwa].
  apply extract_video_id_found; cbn [patterns first_search].
  rewrite re_search_skip.
  2:{ intros j Hj; do 32 (destruct j as [|j]; [reflexivity|]); simpl in Hj; lia. }
  rewrite re_search_lit_no_dot; [|reflexivity|].
  2:{ rewrite !no_char_app, Hdot, (all_id_chars_no_char "." v eq_refl Hva),
        (all_id_chars_no_char "." w eq_refl Hwa); reflexivity. }
  replace ("https://www.youtube.com/watch?v=" ++ v ++ m ++ "&rv=" ++ w)
    with ("https://www." ++ ("youtube.com/watch?" ++ (("v=" ++ v ++ m ++ "&r") ++ ("v=" ++ w))))
    by (rewrite !sapp_assoc; reflexivity).
  rewrite re_search_skip.
  2:{ intros j Hj; do 12 (destruct j as [|j]; [reflexivity|]); simpl in Hj; lia. }
  rewrite (re_search_here _ _ w); [reflexivity|].
  unfold watch_then_id; rewrite starts_with_app, sdrop_app.
  apply dotstar_v_id_app.
  { rewrite no_newline_no_char in *; rewrite !no_char_app, Hnl.
    rewrite (all_id_chars_no_char (char_of 10) v eq_refl Hva); reflexivity. }
  change ("v=" ++ w) with (String "v" (String "=" w)).
  cbn [dotstar_v_id].
  rewrite (dotstar_v_id_id_chars w Hwa).
  replace (v_then_id (String "=" w)) with (@None string) by reflexivity.
  pose proof (lit_then_id_app "v=" w EmptyString Hw) as E.
  rewrite sapp_nil_r in E.
  change (lit_then_id "v=" ("v=" ++ w)) with (v_then_id (String "v" (String "=" w))) in E.
  rewrite E; reflexivity.
Qed.

(** A Mix link: [extract_video_id] returns the seed [BBBBBBBBBBB], not the
    video [AAAAAAAAAAA]. *)
Lemma extract_video_id_later_rv_witness :
  extract_video_id ("https://www.youtube.com/watch?v=" ++ "AAAAAAAAAAA"
                    ++ "&list=RDBBBBBBBBBBB&start_radio=1" ++ "&rv=" ++ "BBBBBBBBBBB") []
  = (Ok "BBBBBBBBBBB", []).
Proof.
  apply (extract_video_id_later_rv "AAAAAAAAAAA" "&list=RDBBBBBBBBBBB&start_radio=1"
           "BBBBBBBBBBB" []); reflexivity.
Defined.

(** ** The note's file name *)








(** ** Extra properties: the identifier resolver and the note name *)





(** ** The stages one by one *)















(** ** Whole runs *)












(** ** Extra properties: whole runs *)












(** ** Witnesses of the extra properties *)











